(** * DeepSeekClient.createChatCompletion: cache, structured output and retry

    A shallow embedding of [src/lib/llm/DeepSeekClient.ts].  The method is
    asynchronous and talks to three collaborators (the response cache, the
    logger and the OpenAI-compatible HTTP client); it also mutates the
    [messages] array of the request object it was handed.  The embedding
    therefore threads an explicit [World] through the method: the contents
    of that array, the cache object, and the trace of collaborator calls
    made so far. *)

From Stdlib Require Import String Ascii List Bool Arith ZArith QArith Lia.
Import ListNotations.

Local Open Scope string_scope.
Local Open Scope list_scope.
Local Open Scope nat_scope.

(** ** JavaScript values that travel through the method *)

(** A JS number.  The method never computes with the sampling parameters,
    it only copies them. *)
Definition JsNumber : Type := Q.

(** The result of [JSON.parse]. *)
#[local] Unset Elimination Schemes.
Inductive Json : Type :=
| JNull
| JBool (b : bool)
| JNumber (n : JsNumber)
| JString (s : string)
| JArray (items : list Json)
| JObject (fields : list (string * Json)).
#[local] Set Elimination Schemes.

(** [Boolean(s)] for a string: only the empty string is falsy. *)
Definition truthy_string (s : string) : bool :=
  match s with
  | EmptyString => false
  | String _ _ => true
  end.

(** [Boolean(v)] for a parsed JSON value. *)
Definition truthy_json (j : Json) : bool :=
  match j with
  | JNull => false
  | JBool b => b
  | JNumber n => negb (Qeq_bool n 0)
  | JString s => truthy_string s
  | JArray _ => true
  | JObject _ => true
  end.

(** An error object, with the properties the [catch] block reads. *)
Record JsError : Type := mkJsError {
  err_name : string;
  err_message : string;
  err_status : option Z;
  err_code : option string
}.

(** [new Error(message)]. *)
Definition Error (message : string) : JsError :=
  mkJsError "Error" message None None.

(** What [JSON.parse] throws. *)
Definition SyntaxError (message : string) : JsError :=
  mkJsError "SyntaxError" message None None.

(** What reading a property of [undefined] throws. *)
Definition TypeError (message : string) : JsError :=
  mkJsError "TypeError" message None None.

(** [error.status === 402]. *)
Definition status_is_402 (error : JsError) : bool :=
  match err_status error with
  | Some s => Z.eqb s 402
  | None => false
  end.

(** ** Messages *)

Inductive Role : Type := system | user | assistant.

(** One element of a structured message content.  The method only asks
    whether the element has a [text] property. *)
Inductive ContentPart : Type :=
| TextPart (text : string)
| ImagePart (image_url : string).

Inductive ChatMessageContent : Type :=
| ContentString (s : string)
| ContentParts (parts : list ContentPart).

Record ChatMessage : Type := mkChatMessage {
  role : Role;
  content : ChatMessageContent
}.

(** An element of [ChatCompletionMessageParam[]]: flat text only. *)
Record ChatCompletionMessageParam : Type := mkParam {
  param_role : Role;
  param_content : string
}.

Definition newline : string := String "010"%char EmptyString.

(** [c => ("text" in c ? c.text : "")] *)
Definition part_text (c : ContentPart) : string :=
  match c with
  | TextPart text => text
  | ImagePart _ => ""
  end.

(** [Array.isArray(content) ? content.map(..).filter(Boolean).join("\n") : content] *)
Definition format_content (c : ChatMessageContent) : string :=
  match c with
  | ContentParts parts =>
      String.concat newline (filter truthy_string (map part_text parts))
  | ContentString s => s
  end.

(** The texts of the text parts, in their order. *)
Definition text_parts (parts : list ContentPart) : list string :=
  flat_map (fun c => match c with
                     | TextPart text => [text]
                     | ImagePart _ => []
                     end) parts.

(** The flattening as the specification words it: the text parts joined
    by newline, the other parts dropped. *)
Definition spec_flatten (parts : list ContentPart) : string :=
  String.concat newline (text_parts parts).

Definition format_message (message : ChatMessage) : ChatCompletionMessageParam :=
  {| param_role := role message;
     param_content := format_content (content message) |}.

(** ** Tools *)

Record LLMTool : Type := mkTool {
  tool_name : string;
  tool_description : string;
  tool_parameters : Json
}.

(** [{ function: { name, description, parameters }, type: "function" }] *)
Record ChatCompletionTool : Type := mkChatCompletionTool {
  fn_name : string;
  fn_description : string;
  fn_parameters : Json;
  tool_type : string
}.

Definition format_tool (tool : LLMTool) : ChatCompletionTool :=
  {| fn_name := tool_name tool;
     fn_description := tool_description tool;
     fn_parameters := tool_parameters tool;
     tool_type := "function" |}.

(** ** Transport request and response *)

(** [ChatCompletionCreateParamsNonStreaming] *)
Record ChatCompletionCreateParams : Type := mkBody {
  body_model : string;
  body_messages : list ChatCompletionMessageParam;
  body_temperature : option JsNumber;
  body_max_tokens : option JsNumber;
  body_top_p : option JsNumber;
  body_frequency_penalty : option JsNumber;
  body_presence_penalty : option JsNumber;
  body_stream : bool;
  body_tools : option (list ChatCompletionTool)
}.

(** [choices[i].message.content] is a string or [null]. *)
Record Choice : Type := mkChoice {
  message_content : option string
}.

Record ChatCompletion : Type := mkChatCompletion {
  completion_id : string;
  choices : list Choice
}.

(** What the method resolves to: the raw response, or the parsed data. *)
Inductive LLMValue : Type :=
| RawResponse (response : ChatCompletion)
| ParsedData (parsedData : Json).

(** [Boolean(v)]: a response object is always truthy. *)
Definition truthy (v : LLMValue) : bool :=
  match v with
  | RawResponse _ => true
  | ParsedData j => truthy_json j
  end.

(** ** The method and its collaborators *)

Section Client.

(** A zod schema, and the two library functions applied to it:
    [JSON.stringify(schema)] and [validateZodSchema(schema, data)]. *)
Context {Schema : Type}.
Variable JSON_stringify : Schema -> string.
Variable validateZodSchema : Schema -> Json -> bool.

(** [JSON.parse(text)]: the parsed value, or the message of the
    [SyntaxError] it throws. *)
Variable JSON_parse : string -> string + Json.

Record ResponseModel : Type := mkResponseModel {
  rm_name : string;
  rm_schema : Schema
}.

(** [ChatCompletionOptions], except for [messages]: that property holds
    a reference to an array, whose contents live in the [World]. *)
Record ChatCompletionOptions : Type := mkOptions {
  temperature : option JsNumber;
  top_p : option JsNumber;
  frequency_penalty : option JsNumber;
  presence_penalty : option JsNumber;
  maxTokens : option JsNumber;
  tools : option (list LLMTool);
  response_model : option ResponseModel;
  requestId : option string
}.

(** The object literal [cacheOptions], as a collaborator sees it when it
    is handed over: [messages] is the array's content at that moment. *)
Record CacheOptions : Type := mkCacheOptions {
  key_model : string;
  key_messages : list ChatMessage;
  key_temperature : option JsNumber;
  key_top_p : option JsNumber;
  key_frequency_penalty : option JsNumber;
  key_presence_penalty : option JsNumber;
  key_response_model : option ResponseModel
}.

(** The cache collaborator: [get] resolves to a value, to [null]
    ([None]) or rejects; [set] is not awaited. *)
Context {LLMCache : Type}.
Variable cache_get :
  LLMCache -> CacheOptions -> option string -> JsError + option LLMValue.
Variable cache_set :
  LLMCache -> CacheOptions -> LLMValue -> option string -> LLMCache.

(** The remote API: what the [k]-th call (counting from 0) of
    [client.chat.completions.create] answers to a request body. *)
Variable completions_create :
  nat -> ChatCompletionCreateParams -> JsError + ChatCompletion.

(** A call made to a collaborator.  The [auxiliary] payload of a log
    line is left out. *)
Inductive Event : Type :=
| CacheGet (key : CacheOptions) (rid : option string)
| CacheSet (key : CacheOptions) (value : LLMValue) (rid : option string)
| Log (category message : string) (level : nat)
| Create (body : ChatCompletionCreateParams).

Record World : Type := mkWorld {
  messages : list ChatMessage;   (* the array object [options.messages] *)
  cache : option LLMCache;       (* [this.cache], possibly [undefined] *)
  trace : list Event             (* collaborator calls, oldest first *)
}.

Record DeepSeekClient : Type := mkClient {
  modelName : string;
  enableCaching : bool
}.

Definition is_create (e : Event) : bool :=
  match e with Create _ => true | _ => false end.

Definition is_cache_set (e : Event) : bool :=
  match e with CacheSet _ _ _ => true | _ => false end.

Definition is_log0 (e : Event) : bool :=
  match e with Log _ _ 0 => true | _ => false end.

(** Number of transport calls recorded in a trace. *)
Definition transport_calls (t : list Event) : nat :=
  length (filter is_create t).

(** The request bodies sent to the transport, oldest first. *)
Fixpoint bodies (t : list Event) : list ChatCompletionCreateParams :=
  match t with
  | [] => []
  | Create body :: t' => body :: bodies t'
  | _ :: t' => bodies t'
  end.

(** *** A state-and-exception monad for the asynchronous method *)

Definition Async (A : Type) : Type := World -> (JsError + A) * World.

Definition ret {A} (a : A) : Async A := fun w => (inr a, w).

Definition throw {A} (e : JsError) : Async A := fun w => (inl e, w).

Definition bind {A B} (m : Async A) (k : A -> Async B) : Async B :=
  fun w =>
    match m w with
    | (inr a, w') => k a w'
    | (inl e, w') => (inl e, w')
    end.

(** [try { m }]: the outcome of the block, for the [catch] to inspect. *)
Definition try {A} (m : Async A) : Async (JsError + A) :=
  fun w => let (r, w') := m w in (inr r, w').

Notation "x <- m ;; k" := (bind m (fun x => k))
  (at level 61, m at next level, right associativity).
Notation "m ;; k" := (bind m (fun _ => k))
  (at level 61, right associativity).

Definition emit (e : Event) (w : World) : World :=
  {| messages := messages w; cache := cache w; trace := trace w ++ [e] |}.

Definition logger (category message : string) (level : nat) : Async unit :=
  fun w => (inr tt, emit (Log category message level) w).

(** [options.messages.unshift(m)] *)
Definition unshift (m : ChatMessage) : Async unit :=
  fun w => (inr tt,
            {| messages := m :: messages w; cache := cache w; trace := trace w |}).

Definition read_messages : Async (list ChatMessage) :=
  fun w => (inr (messages w), w).

(** [{ model: this.modelName, messages: options.messages, ... }] *)
Definition cacheOptions (this : DeepSeekClient)
    (options : ChatCompletionOptions) (msgs : list ChatMessage) : CacheOptions :=
  {| key_model := modelName this;
     key_messages := msgs;
     key_temperature := temperature options;
     key_top_p := top_p options;
     key_frequency_penalty := frequency_penalty options;
     key_presence_penalty := presence_penalty options;
     key_response_model := response_model options |}.

(** [await this.cache?.get(cacheOptions, requestId)] *)
Definition cache_lookup (this : DeepSeekClient)
    (options : ChatCompletionOptions) : Async (option LLMValue) :=
  fun w =>
    match cache w with
    | None => (inr None, w)
    | Some c =>
        let key := cacheOptions this options (messages w) in
        let w' := emit (CacheGet key (requestId options)) w in
        match cache_get c key (requestId options) with
        | inl e => (inl e, w')
        | inr cachedResponse => (inr cachedResponse, w')
        end
    end.

(** [this.cache?.set(cacheOptions, value, requestId)] *)
Definition cache_store (this : DeepSeekClient)
    (options : ChatCompletionOptions) (value : LLMValue) : Async unit :=
  fun w =>
    match cache w with
    | None => (inr tt, w)
    | Some c =>
        let key := cacheOptions this options (messages w) in
        (inr tt,
         {| messages := messages w;
            cache := Some (cache_set c key value (requestId options));
            trace := trace w ++ [CacheSet key value (requestId options)] |})
    end.

(** [await this.client.chat.completions.create(body)] *)
Definition chat_completions_create (body : ChatCompletionCreateParams)
  : Async ChatCompletion :=
  fun w =>
    let w' := emit (Create body) w in
    match completions_create (transport_calls (trace w)) body with
    | inl e => (inl e, w')
    | inr response => (inr response, w')
    end.

(** The system message put in front of the messages of a structured
    request. *)
Definition schema_instruction (rm : ResponseModel) : ChatMessage :=
  {| role := system;
     content := ContentString
       ("Return response in this JSON format: " ++ JSON_stringify (rm_schema rm)
        ++ ". Do not include any other text or markdown formatting.") |}.

Definition request_body (this : DeepSeekClient)
    (options : ChatCompletionOptions) (msgs : list ChatMessage)
  : ChatCompletionCreateParams :=
  {| body_model := modelName this;
     body_messages := map format_message msgs;
     body_temperature := temperature options;
     body_max_tokens := maxTokens options;
     body_top_p := top_p options;
     body_frequency_penalty := frequency_penalty options;
     body_presence_penalty := presence_penalty options;
     body_stream := false;
     body_tools := option_map (map format_tool) (tools options) |}.

Definition no_first_choice : JsError :=
  TypeError "Cannot read properties of undefined (reading 'message')".

(** [response.choices[0].message.content] *)
Definition first_choice_content (response : ChatCompletion)
  : Async (option string) :=
  match choices response with
  | c :: _ => ret (message_content c)
  | [] => throw no_first_choice
  end.

Definition json_parse (text : string) : Async Json :=
  match JSON_parse text with
  | inr parsedData => ret parsedData
  | inl message => throw (SyntaxError message)
  end.

Definition insufficient_balance : JsError :=
  Error "DeepSeek API: Insufficient balance. Please add funds to your account.".

(** [createChatCompletion({ options: optionsInitial, logger, retries })].

    [retries] is the count of attempts that may still follow this one.
    Inside the [try] block a retry is written [return
    this.createChatCompletion(..)], without [await]: the promise is
    handed back as it is and its rejection does not reach the [catch].
    The block therefore yields either a value or the promise to
    continue with. *)
Fixpoint createChatCompletion (this : DeepSeekClient)
    (optionsInitial : ChatCompletionOptions) (retries : nat) {struct retries}
  : Async LLMValue :=
  let options := optionsInitial in
  (* [retries > 0], with the call [retries - 1] that it guards *)
  let again : option (Async LLMValue) :=
    match retries with
    | S retries' => Some (createChatCompletion this optionsInitial retries')
    | O => None
    end in
  hit <- (if enableCaching this then
            cachedResponse <- cache_lookup this options ;;
            match cachedResponse with
            | Some v =>
                if truthy v then
                  logger "llm_cache" "LLM cache hit - returning cached response" 1 ;;
                  ret (Some v)
                else ret None
            | None => ret None
            end
          else ret None) ;;
  match hit with
  | Some cachedResponse => ret cachedResponse
  | None =>
      logger "deepseek" "creating chat completion" 1 ;;
      match response_model options with
      | Some rm => unshift (schema_instruction rm)
      | None => ret tt
      end ;;
      msgs <- read_messages ;;
      let body := request_body this options msgs in
      outcome <- try (
        response <- chat_completions_create body ;;
        logger "deepseek" "response received" 1 ;;
        match response_model options with
        | Some rm =>
            extractedData <- first_choice_content response ;;
            match extractedData with
            | None => throw (Error "No content in response")
            | Some text =>
                if negb (truthy_string text) then
                  throw (Error "No content in response")
                else
                  parsedData <- json_parse text ;;
                  if negb (validateZodSchema (rm_schema rm) parsedData) then
                    match again with
                    | Some retry => ret (inr retry)
                    | None => throw (Error "Invalid response schema")
                    end
                  else
                    (if enableCaching this
                     then cache_store this options (ParsedData parsedData)
                     else ret tt) ;;
                    ret (inl (ParsedData parsedData))
            end
        | None =>
            (if enableCaching this
             then cache_store this options (RawResponse response)
             else ret tt) ;;
            ret (inl (RawResponse response))
        end) ;;
      match outcome with
      | inr (inl value) => ret value
      | inr (inr promise) => promise
      | inl error =>
          logger "deepseek" "error creating chat completion" 0 ;;
          if status_is_402 error then throw insufficient_balance
          else
            match again with
            | Some retry => retry
            | None => throw error
            end
      end
  end.

(** *** Vocabulary for the statements below *)

(** The text of the first choice, when there is one and it is not empty. *)
Definition first_text (response : ChatCompletion) : option string :=
  match choices response with
  | c :: _ =>
      match message_content c with
      | Some text => if truthy_string text then Some text else None
      | None => None
      end
  | [] => None
  end.



(** The error with which the [try] block of an attempt ends when no
    retry is left and the transport gives [answer]; [None] when the
    attempt succeeds. *)
Definition failure (options : ChatCompletionOptions)
    (answer : JsError + ChatCompletion) : option JsError :=
  match answer with
  | inl e => Some e
  | inr response =>
      match response_model options with
      | None => None
      | Some rm =>
          match choices response with
          | [] => Some no_first_choice
          | c :: _ =>
              match message_content c with
              | None => Some (Error "No content in response")
              | Some text =>
                  if truthy_string text then
                    match JSON_parse text with
                    | inl message => Some (SyntaxError message)
                    | inr parsedData =>
                        if validateZodSchema (rm_schema rm) parsedData
                        then None
                        else Some (Error "Invalid response schema")
                    end
                  else Some (Error "No content in response")
              end
          end
      end
  end.

(** The lookup the method would make, with the array holding [msgs], is
    not a hit: caching is off, there is no cache, the cache answers
    [null], or it answers a falsy value. *)
Definition lookup_misses (this : DeepSeekClient)
    (options : ChatCompletionOptions) (msgs : list ChatMessage)
    (c : option LLMCache) : bool :=
  if enableCaching this then
    match c with
    | None => true
    | Some store =>
        match cache_get store (cacheOptions this options msgs) (requestId options) with
        | inr None => true
        | inr (Some v) => negb (truthy v)
        | inl _ => false
        end
    end
  else true.

(** The messages an attempt transmits when it finds [msgs] in the array. *)
Definition outgoing (options : ChatCompletionOptions)
    (msgs : list ChatMessage) : list ChatMessage :=
  match response_model options with
  | Some rm => schema_instruction rm :: msgs
  | None => msgs
  end.

(** [w'] is the world one attempt after [w], when that attempt called
    the transport and wrote nothing to the cache. *)
Definition later (this : DeepSeekClient) (options : ChatCompletionOptions)
    (w w' : World) : Prop :=
  messages w' = outgoing options (messages w) /\
  cache w' = cache w /\
  exists evs,
    trace w' = trace w ++ evs /\
    bodies evs = [request_body this options (outgoing options (messages w))] /\
    filter is_cache_set evs = [].

(** The cache writes among [evs]: none, or a single one that closes
    [evs], stores parsed data accepted by [schema] and is followed by
    the method returning that same data. *)
Definition writes_validated (schema : Schema)
    (result : JsError + LLMValue) (evs : list Event) : Prop :=
  filter is_cache_set evs = [] \/
  exists pre key rid parsedData,
    evs = pre ++ [CacheSet key (ParsedData parsedData) rid] /\
    filter is_cache_set pre = [] /\
    validateZodSchema schema parsedData = true /\
    result = inr (ParsedData parsedData).

Definition param_eqb (a b : ChatCompletionMessageParam) : bool :=
  match param_role a, param_role b with
  | system, system | user, user | assistant, assistant =>
      String.eqb (param_content a) (param_content b)
  | _, _ => false
  end.

(** How many messages of a request body are the injected instruction. *)
Definition instructions_in (rm : ResponseModel)
    (body : ChatCompletionCreateParams) : nat :=
  length (filter (param_eqb (format_message (schema_instruction rm)))
                 (body_messages body)).

(** The keys handed to [cache.get] and to [cache.set], oldest first. *)
Fixpoint get_keys (t : list Event) : list CacheOptions :=
  match t with
  | [] => []
  | CacheGet key _ :: t' => key :: get_keys t'
  | _ :: t' => get_keys t'
  end.

Fixpoint set_keys (t : list Event) : list CacheOptions :=
  match t with
  | [] => []
  | CacheSet key _ _ :: t' => key :: set_keys t'
  | _ :: t' => set_keys t'
  end.

End Client.

Arguments ResponseModel : clear implicits.
Arguments ChatCompletionOptions : clear implicits.
Arguments CacheOptions : clear implicits.
Arguments Event : clear implicits.
Arguments World : clear implicits.
Arguments Async : clear implicits.

(** ** The constructor, and vocabulary for whole calls *)

Section Construction.

Context {Schema : Type}.
Variable JSON_stringify : Schema -> string.
Context {LLMCache : Type}.
Variable cache_get :
  LLMCache -> CacheOptions Schema -> option string -> JsError + option LLMValue.
Variable cache_set :
  LLMCache -> CacheOptions Schema -> LLMValue -> option string -> LLMCache.

(** The argument object of the constructor; [None] is a property left
    [undefined], which is when a default applies. *)
Record ConstructorArgs : Type := mkArgs {
  arg_apiKey : string;
  arg_enableCaching : option bool;
  arg_cache : option LLMCache;
  arg_modelName : option string;
  arg_userProvidedInstructions : option string
}.

(** [ClientOptions] of the HTTP client, as far as the constructor fills it. *)
Record ClientOptions : Type := mkClientOptions {
  baseURL : string;
  apiKey : string
}.

(** The fields of a constructed client.  [this.cache] is kept apart from
    [DeepSeekClient] because the method changes it; it becomes the [cache]
    of the [World] a call starts in. *)
Record Constructed : Type := mkConstructed {
  this_client : DeepSeekClient;
  this_cache : option LLMCache;
  clientOptions : ClientOptions
}.

(** [constructor({ apiKey, enableCaching = false, cache,
    modelName = "deepseek-chat", userProvidedInstructions })].
    [super(modelName, ..)] is what stores [this.modelName]. *)
Definition constructor (args : ConstructorArgs) : Constructed :=
  {| this_client :=
       {| modelName := match arg_modelName args with
                       | Some name => name
                       | None => "deepseek-chat"
                       end;
          enableCaching := match arg_enableCaching args with
                           | Some b => b
                           | None => false
                           end |};
     this_cache := arg_cache args;
     clientOptions := {| baseURL := "https://api.deepseek.com";
                         apiKey := arg_apiKey args |} |}.

(** The world in which the first call on a constructed client runs. *)
Definition first_world (c : Constructed) (msgs : list ChatMessage)
  : World Schema LLMCache :=
  {| messages := msgs; cache := this_cache c; trace := [] |}.

(** The array after [k] attempts have each put their instruction in front. *)
Fixpoint injected (options : ChatCompletionOptions Schema) (k : nat)
    (msgs : list ChatMessage) : list ChatMessage :=
  match k with
  | 0 => msgs
  | S k' => injected options k' (outgoing JSON_stringify options msgs)
  end.

(** The request bodies of [k] attempts in a row that start from [msgs]. *)
Fixpoint sent (this : DeepSeekClient) (options : ChatCompletionOptions Schema)
    (msgs : list ChatMessage) (k : nat) : list ChatCompletionCreateParams :=
  match k with
  | 0 => []
  | S k' =>
      request_body this options (outgoing JSON_stringify options msgs)
      :: sent this options (outgoing JSON_stringify options msgs) k'
  end.



(** A cache that gives back under a key what was last stored under it,
    whatever the correlation ids. *)
Definition stores_what_is_set : Prop :=
  forall c key value rid rid',
    cache_get (cache_set c key value rid) key rid' = inr (Some value).

Definition is_cache_get (e : Event Schema) : bool :=
  match e with CacheGet _ _ => true | _ => false end.

Definition is_image (c : ContentPart) : bool :=
  match c with ImagePart _ => true | TextPart _ => false end.

(** No text part is empty. *)
Definition texts_nonempty (parts : list ContentPart) : bool :=
  forallb truthy_string (text_parts parts).

(** What every request body of a call has in common, whatever the
    messages. *)
Definition body_frame (this : DeepSeekClient)
    (options : ChatCompletionOptions Schema)
    (body : ChatCompletionCreateParams) : Prop :=
  body_model body = modelName this /\
  body_stream body = false /\
  body_temperature body = temperature options /\
  body_max_tokens body = maxTokens options /\
  body_top_p body = top_p options /\
  body_frequency_penalty body = frequency_penalty options /\
  body_presence_penalty body = presence_penalty options /\
  body_tools body = option_map (map format_tool) (tools options).

End Construction.

Arguments ConstructorArgs : clear implicits.
Arguments Constructed : clear implicits.

(** ** A concrete setting

    Collaborators to run the method against: two schemas, the cases of
    [JSON.parse] that the scenarios need, and a cache that compares keys
    by their content (the real one hashes [JSON.stringify(options)]). *)

Module Scenario.

Inductive ZodSchema : Type :=
| AnswerNumber   (* z.object({ answer: z.number() }) *)
| AnyNumber.     (* z.number() *)

(** Stands for [JSON.stringify(schema)]; the text only ever appears
    inside the injected instruction. *)
Definition stringify (schema : ZodSchema) : string :=
  match schema with
  | AnswerNumber => "{answer: ZodNumber}"
  | AnyNumber => "ZodNumber"
  end.

Fixpoint field (name : string) (fields : list (string * Json)) : option Json :=
  match fields with
  | [] => None
  | (k, v) :: rest => if String.eqb k name then Some v else field name rest
  end.

Definition validate (schema : ZodSchema) (data : Json) : bool :=
  match schema, data with
  | AnyNumber, JNumber _ => true
  | AnswerNumber, JObject fields =>
      match field "answer" fields with
      | Some (JNumber _) => true
      | _ => false
      end
  | _, _ => false
  end.

Definition dq : string := String "034"%char EmptyString.

(** [{"answer":4}] and [{"answer":"four"}] *)
Definition answer_4 : string := "{" ++ dq ++ "answer" ++ dq ++ ":4}".
Definition answer_four : string :=
  "{" ++ dq ++ "answer" ++ dq ++ ":" ++ dq ++ "four" ++ dq ++ "}".

(** [JSON.parse] on the texts that the transports below answer with:
    two objects and the number 0 parse; the bare word "four", like any
    other text used below, is not JSON. *)
Definition parse (text : string) : string + Json :=
  if String.eqb text answer_4 then inr (JObject [("answer", JNumber 4%Q)])
  else if String.eqb text answer_four then inr (JObject [("answer", JString "four")])
  else if String.eqb text "0" then inr (JNumber 0%Q)
  else inl "Unexpected token in JSON".

Definition Store : Type := list (CacheOptions ZodSchema * LLMValue).

Definition key_eq_dec (a b : CacheOptions ZodSchema) : {a = b} + {a <> b}.
Proof. repeat decide equality. Defined.

Fixpoint lookup (store : Store) (key : CacheOptions ZodSchema) : option LLMValue :=
  match store with
  | [] => None
  | (k, v) :: rest => if key_eq_dec k key then Some v else lookup rest key
  end.

Definition get (store : Store) (key : CacheOptions ZodSchema)
    (rid : option string) : JsError + option LLMValue :=
  inr (lookup store key).

Definition set (store : Store) (key : CacheOptions ZodSchema)
    (value : LLMValue) (rid : option string) : Store :=
  (key, value) :: store.

(** A transport that gives the same answer to every call. *)
Definition always (answer : JsError + ChatCompletion)
  : nat -> ChatCompletionCreateParams -> JsError + ChatCompletion :=
  fun _ _ => answer.

Definition says (text : string) : JsError + ChatCompletion :=
  inr {| completion_id := "chatcmpl-1";
         choices := [ {| message_content := Some text |} ] |}.

Definition api_error (status : Z) : JsError :=
  {| err_name := "APIError"; err_message := "request failed";
     err_status := Some status; err_code := None |}.

Definition fails (status : Z) : JsError + ChatCompletion :=
  inl (api_error status).

Definition run := createChatCompletion stringify validate parse get set.

Definition client (caching : bool) : DeepSeekClient :=
  {| modelName := "deepseek-chat"; enableCaching := caching |}.

Definition question : list ChatMessage :=
  [ {| role := user; content := ContentString "2+2?" |} ].

Definition structured (schema : ZodSchema) : ChatCompletionOptions ZodSchema :=
  {| temperature := None; top_p := None; frequency_penalty := None;
     presence_penalty := None; maxTokens := None; tools := None;
     response_model := Some {| rm_name := "Answer"; rm_schema := schema |};
     requestId := Some "req-1" |}.

Definition start (msgs : list ChatMessage) (c : option Store) : World ZodSchema Store :=
  {| messages := msgs; cache := c; trace := [] |}.

Definition answer_model : ResponseModel ZodSchema :=
  {| rm_name := "Answer"; rm_schema := AnswerNumber |}.

(** A cache that holds the number 0 for the question asked with the
    schema [z.number()]. *)
Definition zero_cached : Store :=
  [ (cacheOptions (client true) (structured AnyNumber) question,
     ParsedData (JNumber 0%Q)) ].

(** A cache that holds an answer for the question asked with the
    object schema. *)
Definition four_cached : Store :=
  [ (cacheOptions (client true) (structured AnswerNumber) question,
     ParsedData (JObject [("answer", JNumber 4%Q)])) ].

(** A message with two texts around an image and an empty text. *)
Definition mixed_parts : list ContentPart :=
  [ TextPart "a"; ImagePart "https://example.com/i.png"; TextPart ""; TextPart "b" ].

Definition mixed : ChatMessage :=
  {| role := user; content := ContentParts mixed_parts |}.

Definition plain : ChatCompletionOptions ZodSchema :=
  {| temperature := None; top_p := None; frequency_penalty := None;
     presence_penalty := None; maxTokens := None; tools := None;
     response_model := None; requestId := Some "req-1" |}.

(** [structured AnswerNumber] under another request id. *)
Definition structured_again : ChatCompletionOptions ZodSchema :=
  {| temperature := None; top_p := None; frequency_penalty := None;
     presence_penalty := None; maxTokens := None; tools := None;
     response_model := Some {| rm_name := "Answer"; rm_schema := AnswerNumber |};
     requestId := Some "req-2" |}.

End Scenario.

(** ** More of the concrete setting *)

Module Fixtures.

Import Scenario.

(** A transport that gives [a] to its first [k] calls and [b] afterwards. *)
Definition after (k : nat) (a b : JsError + ChatCompletion)
  : nat -> ChatCompletionCreateParams -> JsError + ChatCompletion :=
  fun i _ => if i <? k then a else b.


(** A cache whose lookups are rejected. *)
Definition broken_get (store : Store) (key : CacheOptions ZodSchema)
    (rid : option string) : JsError + option LLMValue :=
  inl (Error "cache unavailable").

Definition run_broken :=
  createChatCompletion stringify validate parse broken_get set.

Definition click_tool : LLMTool :=
  {| tool_name := "click"; tool_description := "click an element";
     tool_parameters := JObject [] |}.

(** A request without a response model, with one tool and a temperature. *)
Definition with_tools : ChatCompletionOptions ZodSchema :=
  {| temperature := Some (7 # 10)%Q; top_p := None; frequency_penalty := None;
     presence_penalty := None; maxTokens := Some 256%Q;
     tools := Some [click_tool];
     response_model := None; requestId := Some "req-3" |}.

(** Constructor arguments that pass a cache and leave the rest to the
    defaults. *)
Definition bare_args : ConstructorArgs Store :=
  {| arg_apiKey := "sk-test";
     arg_enableCaching := None;
     arg_cache := Some four_cached;
     arg_modelName := None;
     arg_userProvidedInstructions := None |}.


Definition pictures : list ContentPart :=
  [ ImagePart "https://example.com/1.png"; ImagePart "https://example.com/2.png" ].

Definition picture_message : ChatMessage :=
  {| role := user; content := ContentParts pictures |}.

Definition captioned : list ContentPart :=
  [ TextPart "a"; ImagePart "https://example.com/1.png"; TextPart "b" ].

End Fixtures.

(** * Properties of [createChatCompletion] *)

Section Properties.

Context {Schema : Type}.
Variable JSON_stringify : Schema -> string.
Variable validateZodSchema : Schema -> Json -> bool.
Variable JSON_parse : string -> string + Json.
Context {LLMCache : Type}.
Variable cache_get :
  LLMCache -> CacheOptions Schema -> option string -> JsError + option LLMValue.
Variable cache_set :
  LLMCache -> CacheOptions Schema -> LLMValue -> option string -> LLMCache.
Variable completions_create :
  nat -> ChatCompletionCreateParams -> JsError + ChatCompletion.

Abbreviation complete :=
  (createChatCompletion JSON_stringify validateZodSchema JSON_parse
                        cache_get cache_set completions_create).
Abbreviation misses := (lookup_misses cache_get).

Implicit Types (this : DeepSeekClient) (options : ChatCompletionOptions Schema)
  (w : World Schema LLMCache) (n : nat).

Lemma transport_calls_app (a b : list (Event Schema)) :
  transport_calls (a ++ b) = transport_calls a + transport_calls b.
Proof.
  unfold transport_calls. now rewrite filter_app, length_app.
Qed.

(** Unfold the monad and its operations, and tidy the trace. *)
Ltac run_ops :=
  unfold bind, ret, throw, try, logger, unshift, read_messages, cache_lookup,
    cache_store, chat_completions_create, first_choice_content, json_parse,
    emit;
  cbn beta iota zeta delta [messages cache trace fst snd];
  rewrite <- ?app_assoc; cbn [app];
  rewrite ?transport_calls_app;
  cbn [transport_calls filter is_create length];
  rewrite ?Nat.add_0_r.

(** Run the method symbolically: split on each test it makes, innermost
    first, reusing what is already known about the scrutinee. *)
Ltac crunch :=
  repeat (run_ops;
          match goal with
          | H : ?x = _ |- context [match ?x with _ => _ end] => rewrite H
          | |- context [match ?x with _ => _ end] =>
              lazymatch x with
              | context [match _ with _ => _ end] => fail
              | _ => destruct x eqn:?
              end
          end);
  run_ops.

(** Discard the cases whose assumptions contradict each other. *)
Ltac clash :=
  intros; try discriminate;
  repeat match goal with
         | H : Some _ = Some _ |- _ => injection H as H; subst
         | H : inl _ = inl _ |- _ => injection H as H; subst
         | H : inr _ = inr _ |- _ => injection H as H; subst
         | H : negb _ = true |- _ => apply negb_true_iff in H
         | H : negb _ = false |- _ => apply negb_false_iff in H
         end;
  try congruence;
  try match goal with
      | H : status_is_402 _ = true |- _ => now cbv in H
      end.

(** Name the world the attempt ends in and check it against [later]. *)
Ltac here :=
  eexists; split; [ | reflexivity ];
  cbn [messages cache trace];
  repeat (split; [ first [ reflexivity | congruence ] | ]);
  eexists; repeat (split; [ reflexivity | ]); reflexivity.

(** One attempt that fails with [e], budget left: the method goes on as
    the call with one retry less, in the world the attempt leaves. *)
Lemma retry_step this options n w e :
  misses this options (messages w) (cache w) = true ->
  failure validateZodSchema JSON_parse options
    (completions_create (transport_calls (trace w))
       (request_body this options (outgoing JSON_stringify options (messages w))))
    = Some e ->
  status_is_402 e = false ->
  exists w', later JSON_stringify this options w w' /\
             complete this options (S n) w = complete this options n w'.
Proof.
  unfold lookup_misses, failure, later, outgoing.
  cbn [createChatCompletion]. crunch; clash; here.
Qed.

(** One attempt that fails with [e], no budget left: [e] comes out. *)
Lemma last_step this options w e :
  misses this options (messages w) (cache w) = true ->
  failure validateZodSchema JSON_parse options
    (completions_create (transport_calls (trace w))
       (request_body this options (outgoing JSON_stringify options (messages w))))
    = Some e ->
  status_is_402 e = false ->
  exists w', later JSON_stringify this options w w' /\
             complete this options 0 w = (inl e, w').
Proof.
  unfold lookup_misses, failure, later, outgoing.
  cbn [createChatCompletion]. crunch; clash; here.
Qed.

(** One attempt whose transport call fails with status 402. *)
Lemma payment_step this options n w e :
  misses this options (messages w) (cache w) = true ->
  completions_create (transport_calls (trace w))
    (request_body this options (outgoing JSON_stringify options (messages w)))
    = inl e ->
  status_is_402 e = true ->
  exists w', later JSON_stringify this options w w' /\
             complete this options n w = (inl insufficient_balance, w').
Proof.
  unfold lookup_misses, later, outgoing.
  destruct n; cbn [createChatCompletion]; crunch; clash; here.
Qed.

Lemma writes_validated_prepend schema r (pre evs : list (Event Schema)) :
  filter is_cache_set pre = [] ->
  writes_validated validateZodSchema schema r evs ->
  writes_validated validateZodSchema schema r (pre ++ evs).
Proof.
  intros Hpre [Hnone | (p & key & rid & j & -> & Hp & Hv & Hr)].
  - left. now rewrite filter_app, Hpre, Hnone.
  - right. exists (pre ++ p), key, rid, j.
    rewrite app_assoc, filter_app, Hpre, Hp. auto.
Qed.

Lemma snoc_nil {A} (x : A) : [x] = [] ++ [x].
Proof. reflexivity. Qed.

Lemma snoc_cons {A} (a : A) l pre x :
  l = pre ++ [x] -> a :: l = (a :: pre) ++ [x].
Proof. now intros ->. Qed.

(** Cache writes of a structured call, by induction on the budget. *)
Lemma attempt_writes this options rm n :
  forall w r w',
    response_model options = Some rm ->
    complete this options n w = (r, w') ->
    exists evs,
      trace w' = trace w ++ evs /\
      writes_validated validateZodSchema (rm_schema rm) r evs.
Proof.
  induction n as [|n IH]; intros w r w' Hrm; cbn [createChatCompletion];
    crunch; clash;
    match goal with
    | H : (_, _) = (_, _) |- _ =>
        injection H as <- <-; cbn [messages cache trace];
        rewrite <- ?app_assoc; cbn [app];
        eexists; split; [ reflexivity | ];
        first [ left; reflexivity
              | right; do 4 eexists;
                split; [ repeat first [ apply snoc_nil | apply snoc_cons ] | ];
                repeat split; first [ reflexivity | assumption ] ]
    | H : createChatCompletion _ _ _ _ _ _ _ _ _ _ = (_, _) |- _ =>
        destruct (IH _ _ _ Hrm H) as (evs' & Ht & Hw);
        cbn [trace] in Ht; rewrite <- app_assoc in Ht;
        eexists; split; [ exact Ht | ];
        apply writes_validated_prepend; [ reflexivity | exact Hw ]
    end.
Qed.

Lemma bodies_app (a b : list (Event Schema)) :
  bodies (a ++ b) = bodies a ++ bodies b.
Proof.
  induction a as [|[] a IH]; cbn; rewrite ?IH; reflexivity.
Qed.

Lemma transport_calls_bodies (t : list (Event Schema)) :
  transport_calls t = length (bodies t).
Proof.
  unfold transport_calls.
  induction t as [|[] t IH]; cbn; rewrite ?IH; reflexivity.
Qed.

Lemma later_calls this options w w' :
  later JSON_stringify this options w w' ->
  transport_calls (trace w') = transport_calls (trace w) + 1.
Proof.
  intros (_ & _ & evs & -> & Hb & _).
  rewrite transport_calls_app, (transport_calls_bodies evs), Hb.
  reflexivity.
Qed.




Lemma nonempty_texts (parts : list ContentPart) :
  filter truthy_string (map part_text parts)
  = filter truthy_string (text_parts parts).
Proof.
  induction parts as [|[text | url] parts IH]; cbn.
  - reflexivity.
  - destruct (truthy_string text); now rewrite IH.
  - exact IH.
Qed.

(** The successful structured call: lookup, request, validated answer,
    cache write, in this order.  The key of the lookup is built from the
    array as the caller handed it over, the key of the write from the
    array with the instruction in front. *)
Lemma structured_success this options rm n w c response text parsedData :
  enableCaching this = true ->
  cache w = Some c ->
  misses this options (messages w) (cache w) = true ->
  response_model options = Some rm ->
  completions_create (transport_calls (trace w))
    (request_body this options (schema_instruction JSON_stringify rm :: messages w))
    = inr response ->
  first_text response = Some text ->
  JSON_parse text = inr parsedData ->
  validateZodSchema (rm_schema rm) parsedData = true ->
  exists w',
    complete this options n w = (inr (ParsedData parsedData), w') /\
    trace w'
    = trace w
      ++ [CacheGet (cacheOptions this options (messages w)) (requestId options);
          Log "deepseek" "creating chat completion" 1;
          Create (request_body this options
                    (schema_instruction JSON_stringify rm :: messages w));
          Log "deepseek" "response received" 1;
          CacheSet (cacheOptions this options
                      (schema_instruction JSON_stringify rm :: messages w))
                   (ParsedData parsedData) (requestId options)].
Proof.
  intros Hen Hc. rewrite Hc. unfold lookup_misses, first_text. rewrite Hen.
  intros Hmiss Hrm Hcall Htext Hparse Hvalid.
  destruct (choices response) as [|choice rest] eqn:Hchoices; [ discriminate | ].
  destruct (message_content choice) as [t|] eqn:Hcontent; [ | discriminate ].
  destruct (truthy_string t) eqn:Ht; [ | discriminate ].
  injection Htext as ->.
  revert Hmiss.
  destruct n; cbn [createChatCompletion]; run_ops;
    rewrite Hen; run_ops; rewrite Hc; run_ops;
    crunch; clash; eexists; split; reflexivity.
Qed.



(** C4: when the transport call of an attempt fails with status 402, the
    method fails with the insufficient-balance error after that one
    transport call, whatever the retry budget. *)
Theorem payment_required_is_fatal this options n w e :
  misses this options (messages w) (cache w) = true ->
  completions_create (transport_calls (trace w))
    (request_body this options (outgoing JSON_stringify options (messages w)))
    = inl e ->
  status_is_402 e = true ->
  exists w',
    complete this options n w = (inl insufficient_balance, w') /\
    transport_calls (trace w') = transport_calls (trace w) + 1.
Proof.
  intros Hmiss Hcall H402.
  destruct (payment_step this options n w e Hmiss Hcall H402) as (w' & Hl & Hrun).
  exists w'. split; [ exact Hrun | exact (later_calls _ _ _ _ Hl) ].
Qed.

(** C5, as amended: with caching enabled, if the cache lookup for the
    request's key returns a truthy value [v], the method returns exactly
    [v]; the only collaborator calls it makes are the lookup and one
    level-1 log line, so the transport is not invoked and no level-0
    log event is emitted. *)
Theorem cache_hit_returns_cached_value this options n w c v :
  enableCaching this = true ->
  cache w = Some c ->
  cache_get c (cacheOptions this options (messages w)) (requestId options)
    = inr (Some v) ->
  truthy v = true ->
  exists w',
    complete this options n w = (inr v, w') /\
    trace w' = trace w
               ++ [CacheGet (cacheOptions this options (messages w)) (requestId options);
                   Log "llm_cache" "LLM cache hit - returning cached response" 1] /\
    transport_calls (trace w') = transport_calls (trace w) /\
    filter is_log0 (trace w') = filter is_log0 (trace w) /\
    messages w' = messages w /\ cache w' = cache w.
Proof.
  intros Hen Hc Hget Htr.
  eexists. split.
  - destruct n; cbn [createChatCompletion]; run_ops;
      rewrite Hen; run_ops; rewrite Hc, Hget; run_ops; rewrite Htr; run_ops;
      reflexivity.
  - cbn [messages cache trace]. repeat split.
    + rewrite transport_calls_app. cbn. lia.
    + rewrite filter_app. cbn. apply app_nil_r.
    + now rewrite Hc.
Qed.

(** C7: for a structured-output request, the cache writes of a call are
    none, or exactly one, made as the last collaborator call, with
    parsed data that passed schema validation and that the method then
    returns; it is never the raw response.  A call that fails makes no
    cache write, and neither does any attempt that is retried. *)
Theorem cache_write_only_after_validation this options rm n w r w' :
  response_model options = Some rm ->
  complete this options n w = (r, w') ->
  exists evs,
    trace w' = trace w ++ evs /\
    writes_validated validateZodSchema (rm_schema rm) r evs /\
    (forall e, r = inl e -> filter is_cache_set evs = []).
Proof.
  intros Hrm Hrun.
  destruct (attempt_writes this options rm n w r w' Hrm Hrun)
    as (evs & Ht & Hw).
  exists evs. repeat split; try assumption.
  intros e ->.
  destruct Hw as [Hnone | (pre & key & rid & parsedData & _ & _ & _ & Hr)];
    [ exact Hnone | discriminate ].
Qed.

(** C8: when the transport call of an attempt fails with an error whose
    status is not 402, the method retries if the budget is greater than
    0, calling itself with the budget decreased by one; with budget 0
    the error object of the transport comes out unchanged. *)
Theorem transport_error_retried_until_exhausted this options n w e :
  misses this options (messages w) (cache w) = true ->
  completions_create (transport_calls (trace w))
    (request_body this options (outgoing JSON_stringify options (messages w)))
    = inl e ->
  status_is_402 e = false ->
  (exists w', later JSON_stringify this options w w' /\
              complete this options (S n) w = complete this options n w') /\
  (exists w', later JSON_stringify this options w w' /\
              complete this options 0 w = (inl e, w')).
Proof.
  intros Hmiss Hcall H402.
  assert (He : failure validateZodSchema JSON_parse options
                 (completions_create (transport_calls (trace w))
                    (request_body this options
                       (outgoing JSON_stringify options (messages w))))
               = Some e) by now rewrite Hcall.
  split.
  - exact (retry_step this options n w e Hmiss He H402).
  - exact (last_step this options w e Hmiss He H402).
Qed.

(** C9, as amended: for a message whose content is a list of parts, the
    content transmitted to the transport for that message is the
    non-empty text parts in their original order, joined by newline;
    every non-text part and every empty text part is dropped. *)
Theorem transmitted_content_joins_nonempty_text this options msgs i m parts :
  nth_error msgs i = Some m ->
  content m = ContentParts parts ->
  nth_error (body_messages (request_body this options msgs)) i
  = Some {| param_role := role m;
            param_content :=
              String.concat newline (filter truthy_string (text_parts parts)) |}.
Proof.
  intros Hm Hc. cbn [request_body body_messages].
  rewrite (map_nth_error format_message i msgs Hm).
  unfold format_message, format_content. rewrite Hc.
  now rewrite nonempty_texts.
Qed.

(** C10: the cache key is a function of the model id, the messages, the
    four sampling parameters and the response model only; two requests
    that agree on these, and so two requests that differ only in their
    requestId, have the same key. *)
Theorem cache_key_ignores_requestId (this1 this2 : DeepSeekClient)
    (o1 o2 : ChatCompletionOptions Schema) msgs :
  modelName this1 = modelName this2 ->
  temperature o1 = temperature o2 ->
  top_p o1 = top_p o2 ->
  frequency_penalty o1 = frequency_penalty o2 ->
  presence_penalty o1 = presence_penalty o2 ->
  response_model o1 = response_model o2 ->
  cacheOptions this1 o1 msgs = cacheOptions this2 o2 msgs.
Proof.
  unfold cacheOptions. now intros -> -> -> -> -> ->.
Qed.

(** ** Whole calls: what is sent and what happens to the array *)

Lemma injected_last options k msgs :
  injected JSON_stringify options (S k) msgs
  = outgoing JSON_stringify options (injected JSON_stringify options k msgs).
Proof.
  revert msgs. induction k as [|k IH]; intros msgs; [ reflexivity | ].
  change (injected JSON_stringify options (S (S k)) msgs)
    with (injected JSON_stringify options (S k)
            (outgoing JSON_stringify options msgs)).
  now rewrite IH.
Qed.

Lemma sent_length this options msgs k :
  length (sent JSON_stringify this options msgs k) = k.
Proof.
  revert msgs. induction k as [|k IH]; intros msgs; cbn; [ | rewrite IH ];
    reflexivity.
Qed.

(** Close a leaf of [run_shape] once the number of attempts is named. *)
Ltac shape_now :=
  cbn [injected sent messages trace]; unfold outgoing;
  rewrite ?bodies_app; cbn [bodies app];
  try match goal with E : response_model _ = _ |- _ => rewrite E end;
  rewrite ?app_nil_r;
  repeat split; solve [ reflexivity | lia ].

(** A call makes some number [k] of attempts that reach the transport, at
    most one more than the budget; each puts its instruction in front of
    the array and sends the array as it then is. *)
Lemma run_shape this options n :
  forall w r w',
    complete this options n w = (r, w') ->
    exists k,
      k <= n + 1 /\
      messages w' = injected JSON_stringify options k (messages w) /\
      bodies (trace w')
      = bodies (trace w) ++ sent JSON_stringify this options (messages w) k.
Proof.
  induction n as [|n IH]; intros w r w';
    cbn [createChatCompletion]; crunch; clash;
    match goal with
    | H : (_, _) = (_, _) |- _ =>
        injection H as <- <-;
        first [ exists 0; shape_now | exists 1; shape_now ]
    | H : createChatCompletion _ _ _ _ _ _ _ _ _ _ = (_, _) |- _ =>
        apply IH in H; destruct H as (k & Hk & Hm & Hb);
        cbn [messages trace] in Hm, Hb;
        rewrite bodies_app, <- app_assoc in Hb; cbn [bodies app] in Hb;
        exists (S k); cbn [injected sent]; unfold outgoing;
        try match goal with E : response_model _ = _ |- _ => rewrite E end;
        repeat split; [ lia | exact Hm | exact Hb ]
    end.
Qed.

Lemma injected_plain options k msgs :
  response_model options = None ->
  injected JSON_stringify options k msgs = msgs.
Proof.
  intros Hrm. revert msgs.
  induction k as [|k IH]; intros msgs; cbn [injected]; [ reflexivity | ].
  rewrite IH. unfold outgoing. now rewrite Hrm.
Qed.

Lemma injected_structured options rm k msgs :
  response_model options = Some rm ->
  injected JSON_stringify options k msgs
  = repeat (schema_instruction JSON_stringify rm) k ++ msgs.
Proof.
  intros Hrm. induction k as [|k IH]; [ reflexivity | ].
  rewrite injected_last, IH. unfold outgoing. now rewrite Hrm.
Qed.

Lemma sent_bodies this options msgs k :
  sent JSON_stringify this options msgs k
  = map (fun i => request_body this options
                    (injected JSON_stringify options (S i) msgs))
        (seq 0 k).
Proof.
  revert msgs. induction k as [|k IH]; intros msgs; [ reflexivity | ].
  cbn [sent seq map injected]. f_equal.
  rewrite IH, <- seq_shift, map_map. reflexivity.
Qed.

Lemma run_calls this options n w r w' k :
  complete this options n w = (r, w') ->
  bodies (trace w')
  = bodies (trace w) ++ sent JSON_stringify this options (messages w) k ->
  transport_calls (trace w') = transport_calls (trace w) + k.
Proof.
  intros _ Hb.
  now rewrite !transport_calls_bodies, Hb, length_app, sent_length.
Qed.

(** X1: whatever the collaborators answer, a call with retry budget [n]
    invokes the transport at most [n + 1] times. *)
Theorem transport_calls_bounded this options n w :
  transport_calls (trace w)
  <= transport_calls (trace (snd (complete this options n w)))
  <= transport_calls (trace w) + (n + 1).
Proof.
  destruct (complete this options n w) as [r w'] eqn:Hrun. cbn [snd].
  destruct (run_shape this options n w r w' Hrun) as (k & Hk & _ & Hb).
  rewrite (run_calls this options n w r w' k Hrun Hb). lia.
Qed.

(** X2: a request without a response model leaves the caller's message
    array as it was, and every attempt of the call sends the same body. *)
Theorem plain_request_keeps_messages this options n w :
  response_model options = None ->
  let w' := snd (complete this options n w) in
  messages w' = messages w /\
  bodies (trace w')
  = bodies (trace w)
    ++ repeat (request_body this options (messages w))
              (transport_calls (trace w') - transport_calls (trace w)).
Proof.
  intros Hrm.
  destruct (complete this options n w) as [r w'] eqn:Hrun. cbn [snd].
  destruct (run_shape this options n w r w' Hrun) as (k & _ & Hm & Hb).
  rewrite (run_calls this options n w r w' k Hrun Hb).
  replace (transport_calls (trace w) + k - transport_calls (trace w)) with k by lia.
  rewrite Hm, Hb, injected_plain by exact Hrm. split; [ reflexivity | ].
  f_equal. rewrite sent_bodies.
  clear Hb Hm Hrun. generalize 0.
  induction k as [|k IH]; intros a; cbn [seq map repeat]; [ reflexivity | ].
  rewrite IH, injected_plain by exact Hrm. reflexivity.
Qed.

(** X3: a request with a response model leaves the caller's message
    array longer: in front of the messages it held there is one injected
    system message, with a text as content, for every transport call the
    call has made. *)
Theorem structured_call_grows_messages this options rm n w :
  response_model options = Some rm ->
  let w' := snd (complete this options n w) in
  exists front,
    messages w' = front ++ messages w /\
    length front = transport_calls (trace w') - transport_calls (trace w) /\
    Forall (fun m => role m = system /\ exists text, content m = ContentString text)
           front.
Proof.
  intros Hrm.
  destruct (complete this options n w) as [r w'] eqn:Hrun. cbn [snd].
  destruct (run_shape this options n w r w' Hrun) as (k & _ & Hm & Hb).
  rewrite (run_calls this options n w r w' k Hrun Hb).
  replace (transport_calls (trace w) + k - transport_calls (trace w)) with k by lia.
  rewrite Hm, (injected_structured options rm _ _ Hrm).
  eexists. split; [ reflexivity | ]. split; [ apply repeat_length | ].
  apply Forall_forall. intros m Hin. apply repeat_spec in Hin. subst m.
  split; [ reflexivity | eexists; reflexivity ].
Qed.

(** X4: in a call with a response model, the request body of attempt
    [i] (counting from 0) carries [i + 1] system messages in front of
    the flattened messages the call started with: the injected
    instructions pile up from one attempt to the next. *)
Theorem structured_attempt_body this options rm n w i body :
  response_model options = Some rm ->
  nth_error (bodies (trace (snd (complete this options n w))))
            (transport_calls (trace w) + i) = Some body ->
  exists front,
    body_messages body = front ++ map format_message (messages w) /\
    length front = S i /\
    Forall (fun p => param_role p = system) front.
Proof.
  intros Hrm.
  destruct (complete this options n w) as [r w'] eqn:Hrun. cbn [snd].
  destruct (run_shape this options n w r w' Hrun) as (k & _ & _ & Hb).
  rewrite Hb, transport_calls_bodies, nth_error_app2 by lia.
  replace (length (bodies (trace w)) + i - length (bodies (trace w))) with i by lia.
  rewrite sent_bodies, nth_error_map, nth_error_seq.
  destruct (i <? k); cbn [option_map Nat.add]; [ | discriminate ].
  intros Hbody. injection Hbody as <-.
  change (injected JSON_stringify options i
            (outgoing JSON_stringify options (messages w)))
    with (injected JSON_stringify options (S i) (messages w)).
  rewrite (injected_structured options rm (S i) _ Hrm).
  cbn [request_body body_messages]. rewrite map_app.
  eexists. split; [ reflexivity | ].
  split; [ now rewrite length_map, repeat_length | ].
  apply Forall_forall. intros p Hin.
  apply in_map_iff in Hin. destruct Hin as (m & <- & Hin).
  apply repeat_spec in Hin. now subst m.
Qed.

(** X5: every request body of a call is for the client's model, has
    streaming off, copies the sampling parameters and the token limit of
    the request, and carries the request's tools, each wrapped as a
    function tool, or no tools when the request has none. *)
Theorem request_bodies_share_frame this options n w body :
  In body (bodies (trace (snd (complete this options n w)))) ->
  In body (bodies (trace w)) \/ body_frame this options body.
Proof.
  destruct (complete this options n w) as [r w'] eqn:Hrun. cbn [snd].
  destruct (run_shape this options n w r w' Hrun) as (k & _ & _ & Hb).
  rewrite Hb, sent_bodies. intros Hin.
  apply in_app_or in Hin. destruct Hin as [Hold | Hnew]; [ now left | right ].
  apply in_map_iff in Hnew. destruct Hnew as (j & <- & _).
  unfold body_frame. cbn. repeat split.
Qed.

(** ** Whole calls: the cache *)

(** With caching off, or without a cache, a call leaves the cache alone. *)
Lemma quiet_cache this options n :
  forall w r w',
    enableCaching this = false \/ cache w = None ->
    complete this options n w = (r, w') ->
    cache w' = cache w /\
    exists evs,
      trace w' = trace w ++ evs /\
      filter is_cache_get evs = [] /\
      filter is_cache_set evs = [].
Proof.
  induction n as [|n IH]; intros w r w' [Hoff | Hnone];
    cbn [createChatCompletion]; crunch; clash;
    match goal with
    | H : (_, _) = (_, _) |- _ =>
        injection H as <- <-; cbn [messages cache trace];
        split; [ congruence | ];
        eexists; split; [ reflexivity | ]; split; reflexivity
    | H : createChatCompletion _ _ _ _ _ _ _ _ _ _ = (_, _) |- _ =>
        apply IH in H;
        [ destruct H as (Hc & evs & Ht & Hg & Hs);
          cbn [messages cache trace] in Hc, Ht;
          split; [ congruence | ];
          rewrite <- app_assoc in Ht;
          eexists; split; [ exact Ht | ];
          rewrite !filter_app, Hg, Hs; split; reflexivity
        | cbn [cache]; first [ left; assumption | right; congruence ] ]
    end.
Qed.

(** X6: a client with caching off, or one that was given no cache, makes
    no call to the cache, neither [get] nor [set], and leaves it as it
    was. *)
Theorem no_caching_no_cache_calls this options n w :
  enableCaching this = false \/ cache w = None ->
  let w' := snd (complete this options n w) in
  cache w' = cache w /\
  get_keys (trace w') = get_keys (trace w) /\
  set_keys (trace w') = set_keys (trace w).
Proof.
  intros Hq.
  destruct (complete this options n w) as [r w'] eqn:Hrun. cbn [snd].
  destruct (quiet_cache this options n w r w' Hq Hrun)
    as (Hc & evs & -> & Hg & Hs).
  split; [ exact Hc | ].
  clear Hrun Hc. generalize (trace w) as t.
  induction t as [|[] t [IHg IHs]]; cbn [app get_keys set_keys];
    try (split; congruence).
  clear Hq. induction evs as [|[] evs IH]; cbn in Hg, Hs |- *;
    try discriminate; auto.
Qed.

(** X7: a client constructed without [enableCaching] has caching off:
    even when a cache is passed to the constructor, a call never reads
    or writes it. *)
Theorem default_client_never_uses_cache
    (args : ConstructorArgs LLMCache) options n msgs :
  arg_enableCaching args = None ->
  let w' := snd (complete (this_client (constructor args)) options n
                          (first_world (constructor args) msgs)) in
  cache w' = arg_cache args /\
  get_keys (trace w') = [] /\
  set_keys (trace w') = [].
Proof.
  intros Hdefault.
  destruct (complete (this_client (constructor args)) options n
                     (first_world (constructor args) msgs)) as [r w'] eqn:Hrun.
  cbn [snd].
  assert (Hoff : enableCaching (this_client (constructor args)) = false)
    by (cbn; now rewrite Hdefault).
  destruct (quiet_cache _ options n _ r w' (or_introl Hoff) Hrun)
    as (Hc & evs & Ht & Hg & Hs).
  cbn [first_world cache trace constructor this_cache app] in Hc, Ht.
  rewrite Ht. split; [ exact Hc | ].
  clear - Hg Hs. induction evs as [|[] evs IH]; cbn in Hg, Hs |- *;
    try discriminate; auto.
Qed.

(** X8: when [cache.get] rejects, the call fails with that error at
    once, whatever the budget: no retry, no transport call and no log
    line. *)
Theorem cache_rejection_propagates this options n w c e :
  enableCaching this = true ->
  cache w = Some c ->
  cache_get c (cacheOptions this options (messages w)) (requestId options)
    = inl e ->
  complete this options n w
  = (inl e,
     {| messages := messages w; cache := cache w;
        trace := trace w
                 ++ [CacheGet (cacheOptions this options (messages w))
                              (requestId options)] |}).
Proof.
  intros Hen Hc Hget.
  destruct n; cbn [createChatCompletion]; run_ops;
    rewrite Hen; run_ops; rewrite Hc, Hget; run_ops; reflexivity.
Qed.

(** X9: a request without a response model gets back whatever response
    the transport gave, unparsed and unvalidated (an empty [choices]
    array included), after a single transport call, whatever the budget. *)
Theorem plain_answer_returned_unparsed this options n w response :
  response_model options = None ->
  misses this options (messages w) (cache w) = true ->
  completions_create (transport_calls (trace w))
    (request_body this options (messages w)) = inr response ->
  exists w',
    complete this options n w = (inr (RawResponse response), w') /\
    messages w' = messages w /\
    transport_calls (trace w') = transport_calls (trace w) + 1.
Proof.
  unfold lookup_misses. intros Hrm Hmiss Hcall. revert Hmiss.
  destruct n; cbn [createChatCompletion]; crunch; clash;
    (eexists; split; [ reflexivity | ]);
    cbn [messages trace]; (split; [ reflexivity | ]);
    rewrite transport_calls_app; reflexivity.
Qed.

(** X10: with caching on, the raw response of a request without a
    response model is stored under the very key that was looked up. *)
Theorem plain_answer_cached_under_lookup_key this options n w c response :
  response_model options = None ->
  enableCaching this = true ->
  cache w = Some c ->
  misses this options (messages w) (cache w) = true ->
  completions_create (transport_calls (trace w))
    (request_body this options (messages w)) = inr response ->
  let key := cacheOptions this options (messages w) in
  exists w',
    complete this options n w = (inr (RawResponse response), w') /\
    trace w'
    = trace w
      ++ [CacheGet key (requestId options);
          Log "deepseek" "creating chat completion" 1;
          Create (request_body this options (messages w));
          Log "deepseek" "response received" 1;
          CacheSet key (RawResponse response) (requestId options)] /\
    cache w' = Some (cache_set c key (RawResponse response) (requestId options)).
Proof.
  unfold lookup_misses. intros Hrm Hen Hc. rewrite Hc, Hen.
  intros Hmiss Hcall. revert Hmiss.
  destruct n; cbn [createChatCompletion]; run_ops;
    rewrite Hen; run_ops; rewrite Hc; run_ops;
    crunch; clash; eexists; repeat split; reflexivity.
Qed.

(** X11: what a call with a response model returns is parsed data that
    the schema accepts, unless it is a value that the cache served. *)
Theorem structured_result_is_validated this options rm n :
  forall w v w',
    response_model options = Some rm ->
    complete this options n w = (inr v, w') ->
    (exists parsedData,
        v = ParsedData parsedData /\
        validateZodSchema (rm_schema rm) parsedData = true) \/
    (enableCaching this = true /\
     exists c msgs,
       cache w = Some c /\
       cache_get c (cacheOptions this options msgs) (requestId options)
       = inr (Some v) /\
       truthy v = true).
Proof.
  induction n as [|n IH]; intros w v w' Hrm;
    cbn [createChatCompletion]; crunch; clash;
    match goal with
    | H : (_, _) = (_, _) |- _ =>
        injection H as <- <-;
        first [ left; eexists; split; [ reflexivity | assumption ]
              | right; split; [ solve [ reflexivity | assumption ] | ];
                do 2 eexists; repeat split;
                solve [ reflexivity | eassumption ] ]
    | H : createChatCompletion _ _ _ _ _ _ _ _ _ _ = (_, _) |- _ =>
        destruct (IH _ _ _ Hrm H) as [L | (Hen & c' & msgs & Hc & Hg & Ht)];
        [ left; exact L
        | right; split; [ exact Hen | ];
          cbn [cache] in Hc; exists c', msgs;
          repeat split; solve [ assumption | congruence ] ]
    end.
Qed.

(** ** Whole calls: failures *)

(** X12: a call that fails has logged the failure at level 0 as the last
    thing it did; the one exception is a rejection of [cache.get], which
    comes out right after the lookup with no log line. *)
Theorem failed_call_ends_with_error_log this options n :
  forall w e w',
    complete this options n w = (inl e, w') ->
    (exists pre,
        trace w'
        = trace w ++ pre ++ [Log "deepseek" "error creating chat completion" 0]) \/
    (exists pre c msgs,
        trace w'
        = trace w ++ pre ++ [CacheGet (cacheOptions this options msgs)
                                      (requestId options)] /\
        cache w = Some c /\
        cache_get c (cacheOptions this options msgs) (requestId options) = inl e).
Proof.
  induction n as [|n IH]; intros w e w';
    cbn [createChatCompletion]; crunch; clash;
    match goal with
    | H : (_, _) = (_, _) |- _ =>
        injection H as <- <-; cbn [messages cache trace];
        first [ left; eexists; f_equal;
                solve [ repeat first [ apply snoc_nil | apply snoc_cons ] ]
              | right; do 3 eexists; split;
                [ f_equal;
                  solve [ repeat first [ apply snoc_nil | apply snoc_cons ] ]
                | split; solve [ reflexivity | eassumption ] ] ]
    | H : createChatCompletion _ _ _ _ _ _ _ _ _ _ = (_, _) |- _ =>
        destruct (IH _ _ _ H) as [(pre & Ht) | (pre & c' & msgs & Ht & Hc & Hg)];
        cbn [messages cache trace] in *; rewrite <- app_assoc in Ht;
        [ left; eexists; rewrite Ht; f_equal; apply app_assoc
        | right; do 3 eexists; split;
          [ rewrite Ht; f_equal; apply app_assoc
          | split; [ solve [ eassumption | congruence ] | exact Hg ] ] ]
    end.
Qed.

(** The test for a cache hit, run in isolation. *)
Lemma hit_step this options n w c v :
  enableCaching this = true ->
  cache w = Some c ->
  cache_get c (cacheOptions this options (messages w)) (requestId options)
    = inr (Some v) ->
  truthy v = true ->
  complete this options n w
  = (inr v,
     {| messages := messages w; cache := cache w;
        trace := trace w
                 ++ [CacheGet (cacheOptions this options (messages w))
                              (requestId options);
                     Log "llm_cache" "LLM cache hit - returning cached response" 1] |}).
Proof.
  intros Hen Hc Hget Htr.
  destruct n; cbn [createChatCompletion]; run_ops;
    rewrite Hen; run_ops; rewrite Hc, Hget; run_ops; rewrite Htr; run_ops;
    reflexivity.
Qed.

(** After a successful call with caching on, the cache holds the returned
    value under the key of the array as the call left it. *)
Lemma leaves_value_in_cache this options n :
  stores_what_is_set cache_get cache_set ->
  enableCaching this = true ->
  forall w c v w',
    cache w = Some c ->
    complete this options n w = (inr v, w') ->
    exists c',
      cache w' = Some c' /\
      cache_get c' (cacheOptions this options (messages w')) (requestId options)
      = inr (Some v).
Proof.
  intros Hlaw Hen.
  induction n as [|n IH]; intros w c v w' Hc;
    cbn [createChatCompletion]; crunch; clash;
    match goal with
    | H : (_, _) = (_, _) |- _ =>
        injection H as <- <-; cbn [messages cache trace];
        eexists; split; [ reflexivity | ];
        first [ apply Hlaw | assumption ]
    | H : createChatCompletion _ _ _ _ _ _ _ _ _ _ = (_, _) |- _ =>
        eapply IH; [ | exact H ]; cbn [cache]; solve [ reflexivity | eassumption ]
    end.
Qed.

(** X13: with caching on and a cache that gives back what was stored,
    a call that succeeded with a truthy value can be repeated on the same
    request object: any further call, whatever its budget, returns the
    same value from the cache, without a transport call and without
    touching the array or the cache. *)
Theorem cached_value_is_served_again this options n m w c v w' :
  stores_what_is_set cache_get cache_set ->
  enableCaching this = true ->
  cache w = Some c ->
  complete this options n w = (inr v, w') ->
  truthy v = true ->
  exists w'',
    complete this options m w' = (inr v, w'') /\
    transport_calls (trace w'') = transport_calls (trace w') /\
    messages w'' = messages w' /\
    cache w'' = cache w'.
Proof.
  intros Hlaw Hen Hc Hrun Htr.
  destruct (leaves_value_in_cache this options n Hlaw Hen w c v w' Hc Hrun)
    as (c' & Hc' & Hget).
  eexists. split; [ exact (hit_step this options m w' c' v Hen Hc' Hget Htr) | ].
  cbn [messages cache trace]. rewrite transport_calls_app. cbn.
  repeat split. lia.
Qed.








(** ** Flattening *)

Lemma filter_all {A} (f : A -> bool) (l : list A) :
  forallb f l = true -> filter f l = l.
Proof.
  induction l as [|a l IH]; cbn; [ reflexivity | ].
  destruct (f a); [ | discriminate ]. intros H. now rewrite IH.
Qed.

(** X18: when no text part is empty, the content transmitted for a
    message with a list of parts is exactly its text parts, in order,
    joined by newline. *)
Theorem nonempty_texts_join_by_newline (parts : list ContentPart) :
  texts_nonempty parts = true ->
  format_content (ContentParts parts) = spec_flatten parts.
Proof.
  unfold texts_nonempty, format_content, spec_flatten. intros Hne.
  now rewrite nonempty_texts, filter_all.
Qed.

(** X19: a message whose parts are all images is not dropped: it is
    transmitted at its place, under its role, with the empty string as
    content. *)
Theorem images_only_message_sent_empty this options msgs i m parts :
  nth_error msgs i = Some m ->
  content m = ContentParts parts ->
  forallb is_image parts = true ->
  nth_error (body_messages (request_body this options msgs)) i
  = Some {| param_role := role m; param_content := "" |}.
Proof.
  intros Hm Hc Himg. cbn [request_body body_messages].
  rewrite (map_nth_error format_message i msgs Hm).
  unfold format_message, format_content. rewrite Hc. do 2 f_equal.
  clear Hm Hc. induction parts as [|[text | url] parts IH]; cbn in Himg |- *.
  - reflexivity.
  - discriminate.
  - exact (IH Himg).
Qed.

End Properties.

(** * The method at work in the concrete setting *)

Import Scenario.

(** C1: the code does not keep this property.  The injection is an
    [unshift] on the caller's own array, and a retry passes the same
    request object again.  With budget 1 and responses that fail
    validation, the first request body carries the injected instruction
    once and the second carries it twice; the caller's array ends up with
    two copies in front of the question. *)
Theorem retry_repeats_schema_instruction :
  let '(r, w') :=
    run (always (says answer_four)) (client false) (structured AnswerNumber) 1
        (start question None) in
  r = inl (Error "Invalid response schema") /\
  map (instructions_in stringify answer_model) (bodies (trace w')) = [1; 2] /\
  messages w'
  = schema_instruction stringify answer_model
      :: schema_instruction stringify answer_model :: question.
Proof.
  vm_compute. repeat split.
Qed.




(** C4 at work: budget 3, one transport call. *)
Lemma payment_required_is_fatal_witness :
  exists w',
    run (always (fails 402)) (client false) plain 3 (start question None)
    = (inl insufficient_balance, w') /\
    transport_calls (trace w') = 0 + 1.
Proof.
  apply (payment_required_is_fatal stringify validate parse get set
           (always (fails 402)) (client false) plain 3 (start question None)
           (api_error 402)).
  - reflexivity.
  - reflexivity.
  - reflexivity.
Defined.

(** How a falsy value gets into the cache: the schema [z.number()]
    accepts the answer 0, and the method stores it. *)
Example zero_is_cached :
  let '(r, w') :=
    run (always (says "0")) (client true) (structured AnyNumber) 3
        (start question (Some [])) in
  r = inr (ParsedData (JNumber 0%Q)) /\
  exists key, cache w' = Some [(key, ParsedData (JNumber 0%Q))].
Proof.
  vm_compute. split; [ reflexivity | eexists; reflexivity ].
Qed.

(** C5 fails as stated: the cache returns the number 0 for the request's
    key, and the method goes on to the transport; here the transport
    refuses with status 402, so the call fails, with a level-0 log line,
    instead of returning the cached 0. *)
Lemma falsy_cache_answer_is_a_miss :
  get zero_cached (cacheOptions (client true) (structured AnyNumber) question)
      (Some "req-1")
  = inr (Some (ParsedData (JNumber 0%Q))) /\
  let '(r, w') :=
    run (always (fails 402)) (client true) (structured AnyNumber) 3
        (start question (Some zero_cached)) in
  r = inl insufficient_balance /\
  transport_calls (trace w') = 1 /\
  length (filter is_log0 (trace w')) = 1.
Proof.
  vm_compute. repeat split.
Qed.

(** The amended C5 at work: the cached object comes back although the
    transport would refuse. *)
Lemma cache_hit_returns_cached_value_witness :
  exists w',
    run (always (fails 402)) (client true) (structured AnswerNumber) 3
        (start question (Some four_cached))
    = (inr (ParsedData (JObject [("answer", JNumber 4%Q)])), w') /\
    trace w'
    = [] ++ [CacheGet (cacheOptions (client true) (structured AnswerNumber) question)
                      (Some "req-1");
             Log "llm_cache" "LLM cache hit - returning cached response" 1] /\
    transport_calls (trace w') = 0 /\
    filter is_log0 (trace w') = [] /\
    messages w' = question /\ cache w' = Some four_cached.
Proof.
  apply (cache_hit_returns_cached_value stringify validate parse get set
           (always (fails 402)) (client true) (structured AnswerNumber) 3
           (start question (Some four_cached)) four_cached
           (ParsedData (JObject [("answer", JNumber 4%Q)]))).
  - reflexivity.
  - reflexivity.
  - vm_compute. reflexivity.
  - reflexivity.
Defined.

(** C6: the code does not keep this property.  [cacheOptions.messages] is
    the caller's array itself, and the instruction is put in front of it
    between the lookup and the write.  On a first call that succeeds, the
    key given to [cache.set] has the injected instruction in front of the
    messages of the key given to [cache.get], and a later lookup under
    the caller's original messages does not find what was stored. *)
Theorem cache_set_key_has_injected_instruction :
  let '(r, w') :=
    run (always (says answer_4)) (client true) (structured AnswerNumber) 3
        (start question (Some [])) in
  r = inr (ParsedData (JObject [("answer", JNumber 4%Q)])) /\
  get_keys (trace w')
  = [cacheOptions (client true) (structured AnswerNumber) question] /\
  set_keys (trace w')
  = [cacheOptions (client true) (structured AnswerNumber)
       (schema_instruction stringify answer_model :: question)] /\
  set_keys (trace w') <> get_keys (trace w') /\
  match cache w' with
  | Some store =>
      get store (cacheOptions (client true) (structured AnswerNumber) question)
          (Some "req-1") = inr None
  | None => False
  end.
Proof.
  vm_compute. repeat split. discriminate.
Qed.

(** C7 at work on the successful call. *)
Lemma cache_write_only_after_validation_witness :
  exists evs,
    trace (snd (run (always (says answer_4)) (client true)
                    (structured AnswerNumber) 3 (start question (Some []))))
    = [] ++ evs /\
    writes_validated validate AnswerNumber
      (fst (run (always (says answer_4)) (client true)
                (structured AnswerNumber) 3 (start question (Some []))))
      evs /\
    (forall e,
        fst (run (always (says answer_4)) (client true)
                 (structured AnswerNumber) 3 (start question (Some [])))
        = inl e ->
        filter is_cache_set evs = []).
Proof.
  apply (cache_write_only_after_validation stringify validate parse get set
           (always (says answer_4)) (client true) (structured AnswerNumber)
           answer_model 3 (start question (Some []))).
  - reflexivity.
  - vm_compute. reflexivity.
Defined.

(** C8 at work: a transport that fails with status 500. *)
Lemma transport_error_retried_until_exhausted_witness :
  (exists w',
      later stringify (client false) plain (start question None) w' /\
      run (always (fails 500)) (client false) plain 3 (start question None)
      = run (always (fails 500)) (client false) plain 2 w') /\
  (exists w',
      later stringify (client false) plain (start question None) w' /\
      run (always (fails 500)) (client false) plain 0 (start question None)
      = (inl (api_error 500), w')).
Proof.
  apply (transport_error_retried_until_exhausted stringify validate parse get set
           (always (fails 500)) (client false) plain 2 (start question None)
           (api_error 500)).
  - reflexivity.
  - reflexivity.
  - reflexivity.
Defined.

(** C9 fails as stated: an empty text part is dropped together with the
    image, so the texts "a", "" and "b" are transmitted as two lines,
    where the text parts joined by newline make three. *)
Lemma empty_text_part_is_dropped :
  nth_error (body_messages (request_body (client false) plain [mixed])) 0
  = Some {| param_role := user; param_content := ("a" ++ newline ++ "b")%string |} /\
  spec_flatten mixed_parts = ("a" ++ newline ++ newline ++ "b")%string /\
  format_content (content mixed) <> spec_flatten mixed_parts.
Proof.
  vm_compute. repeat split. discriminate.
Qed.

(** The amended C9 at work on the second message of a request. *)
Lemma transmitted_content_joins_nonempty_text_witness :
  nth_error (body_messages (request_body (client false) plain (question ++ [mixed]))) 1
  = Some {| param_role := role mixed;
            param_content :=
              String.concat newline (filter truthy_string (text_parts mixed_parts)) |}.
Proof.
  apply (transmitted_content_joins_nonempty_text (client false) plain
           (question ++ [mixed]) 1 mixed mixed_parts).
  - reflexivity.
  - reflexivity.
Defined.

(** C10 at work: the same request under two request ids. *)
Lemma cache_key_ignores_requestId_witness :
  requestId (structured AnswerNumber) <> requestId structured_again /\
  cacheOptions (client true) (structured AnswerNumber) question
  = cacheOptions (client true) structured_again question.
Proof.
  split.
  - discriminate.
  - apply (cache_key_ignores_requestId (client true) (client true)
             (structured AnswerNumber) structured_again question); reflexivity.
Defined.

(** * Further properties in the concrete setting *)

Import Fixtures.

(** The cache of the setting gives back what was stored. *)
Lemma store_gives_back : stores_what_is_set get set.
Proof.
  intros c key value rid rid'. unfold get, set. cbn [lookup].
  destruct (key_eq_dec key key) as [_ | Hne]; [ reflexivity | now elim Hne ].
Qed.


(** X2 at work: two failed attempts, the question untouched. *)
Lemma plain_request_keeps_messages_witness :
  let w' := snd (run (always (fails 500)) (client false) plain 1
                     (start question None)) in
  messages w' = question /\
  bodies (trace w')
  = [] ++ repeat (request_body (client false) plain question)
                 (transport_calls (trace w') - 0).
Proof.
  apply (plain_request_keeps_messages stringify validate parse get set
           (always (fails 500)) (client false) plain 1 (start question None)).
  reflexivity.
Defined.

(** X3 at work: three attempts, three system messages in the array. *)
Lemma structured_call_grows_messages_witness :
  let w' := snd (run (always (says answer_four)) (client false)
                     (structured AnswerNumber) 2 (start question None)) in
  exists front,
    messages w' = front ++ question /\
    length front = transport_calls (trace w') - 0 /\
    Forall (fun m => role m = system /\ exists text, content m = ContentString text)
           front.
Proof.
  apply (structured_call_grows_messages stringify validate parse get set
           (always (says answer_four)) (client false) (structured AnswerNumber)
           answer_model 2 (start question None)).
  reflexivity.
Defined.

(** X4 at work: the third request body of a call. *)
Lemma structured_attempt_body_witness :
  exists front,
    body_messages
      (request_body (client false) (structured AnswerNumber)
         (injected stringify (structured AnswerNumber) 3 question))
    = front ++ map format_message question /\
    length front = 3 /\
    Forall (fun p => param_role p = system) front.
Proof.
  apply (structured_attempt_body stringify validate parse get set
           (always (says answer_four)) (client false) (structured AnswerNumber)
           answer_model 2 (start question None) 2).
  - reflexivity.
  - vm_compute. reflexivity.
Defined.

(** X5 at work: the body of a request with a tool. *)
Lemma request_bodies_share_frame_witness :
  In (request_body (client false) with_tools question) [] \/
  body_frame (client false) with_tools
             (request_body (client false) with_tools question).
Proof.
  apply (request_bodies_share_frame stringify validate parse get set
           (always (says "hello")) (client false) with_tools 3
           (start question None)).
  vm_compute. left. reflexivity.
Defined.

(** X6 at work: caching off, a cache at hand. *)
Lemma no_caching_no_cache_calls_witness :
  let w' := snd (run (always (says answer_4)) (client false)
                     (structured AnswerNumber) 3
                     (start question (Some four_cached))) in
  cache w' = Some four_cached /\
  get_keys (trace w') = [] /\
  set_keys (trace w') = [].
Proof.
  apply (no_caching_no_cache_calls stringify validate parse get set
           (always (says answer_4)) (client false) (structured AnswerNumber) 3
           (start question (Some four_cached))).
  left. reflexivity.
Defined.

(** X7 at work: a cache passed to the constructor, nothing else. *)
Lemma default_client_never_uses_cache_witness :
  let w' := snd (run (always (says answer_4))
                     (this_client (constructor bare_args))
                     (structured AnswerNumber) 3
                     (first_world (constructor bare_args) question)) in
  cache w' = Some four_cached /\
  get_keys (trace w') = [] /\
  set_keys (trace w') = [].
Proof.
  apply (default_client_never_uses_cache stringify validate parse get set
           (always (says answer_4)) bare_args (structured AnswerNumber) 3
           question).
  reflexivity.
Defined.

(** X8 at work: the lookup is rejected, budget 3. *)
Lemma cache_rejection_propagates_witness :
  run_broken (always (says answer_4)) (client true) (structured AnswerNumber) 3
             (start question (Some []))
  = (inl (Error "cache unavailable"),
     {| messages := question; cache := Some [];
        trace := [] ++ [CacheGet (cacheOptions (client true)
                                    (structured AnswerNumber) question)
                                 (Some "req-1")] |}).
Proof.
  apply (cache_rejection_propagates stringify validate parse broken_get set
           (always (says answer_4)) (client true) (structured AnswerNumber) 3
           (start question (Some [])) [] (Error "cache unavailable"));
    reflexivity.
Defined.

(** X9 at work: text that is not JSON comes back as it is. *)
Lemma plain_answer_returned_unparsed_witness :
  exists w',
    run (always (says "four")) (client false) plain 3 (start question None)
    = (inr (RawResponse {| completion_id := "chatcmpl-1";
                           choices := [ {| message_content := Some "four" |} ] |}),
       w') /\
    messages w' = question /\
    transport_calls (trace w') = 0 + 1.
Proof.
  apply (plain_answer_returned_unparsed stringify validate parse get set
           (always (says "four")) (client false) plain 3 (start question None));
    reflexivity.
Defined.

(** X10 at work: an empty cache, one entry afterwards. *)
Lemma plain_answer_cached_under_lookup_key_witness :
  let key := cacheOptions (client true) plain question in
  let response := {| completion_id := "chatcmpl-1";
                     choices := [ {| message_content := Some "four" |} ] |} in
  exists w',
    run (always (says "four")) (client true) plain 3 (start question (Some []))
    = (inr (RawResponse response), w') /\
    trace w'
    = [] ++ [CacheGet key (Some "req-1");
             Log "deepseek" "creating chat completion" 1;
             Create (request_body (client true) plain question);
             Log "deepseek" "response received" 1;
             CacheSet key (RawResponse response) (Some "req-1")] /\
    cache w' = Some (set [] key (RawResponse response) (Some "req-1")).
Proof.
  apply (plain_answer_cached_under_lookup_key stringify validate parse get set
           (always (says "four")) (client true) plain 3
           (start question (Some [])) []);
    reflexivity.
Defined.

(** X11 at work: one mismatch, then an accepted answer. *)
Lemma structured_result_is_validated_witness :
  (exists parsedData,
      ParsedData (JObject [("answer", JNumber 4%Q)]) = ParsedData parsedData /\
      validate AnswerNumber parsedData = true) \/
  (enableCaching (client false) = true /\
   exists c msgs,
     cache (start question None) = Some c /\
     get c (cacheOptions (client false) (structured AnswerNumber) msgs)
         (Some "req-1")
     = inr (Some (ParsedData (JObject [("answer", JNumber 4%Q)]))) /\
     truthy (ParsedData (JObject [("answer", JNumber 4%Q)])) = true).
Proof.
  apply (structured_result_is_validated stringify validate parse get set
           (after 1 (says answer_four) (says answer_4)) (client false)
           (structured AnswerNumber) answer_model 3 (start question None)
           (ParsedData (JObject [("answer", JNumber 4%Q)]))
           (snd (run (after 1 (says answer_four) (says answer_4)) (client false)
                     (structured AnswerNumber) 3 (start question None)))).
  - reflexivity.
  - vm_compute. reflexivity.
Defined.

(** X12 at work: a transport that always fails with status 500. *)
Lemma failed_call_ends_with_error_log_witness :
  let w' := snd (run (always (fails 500)) (client false) plain 1
                     (start question None)) in
  (exists pre,
      trace w' = [] ++ pre ++ [Log "deepseek" "error creating chat completion" 0]) \/
  (exists pre c msgs,
      trace w' = [] ++ pre ++ [CacheGet (cacheOptions (client false) plain msgs)
                                        (Some "req-1")] /\
      cache (start question None) = Some c /\
      get c (cacheOptions (client false) plain msgs) (Some "req-1")
      = inl (api_error 500)).
Proof.
  apply (failed_call_ends_with_error_log stringify validate parse get set
           (always (fails 500)) (client false) plain 1 (start question None)
           (api_error 500)).
  vm_compute. reflexivity.
Defined.

(** X13 at work: the answer is fetched once; the second call, for which
    the transport would refuse, is served from the cache. *)
Lemma cached_value_is_served_again_witness :
  let w' := snd (run (after 1 (says answer_4) (fails 402)) (client true)
                     (structured AnswerNumber) 3 (start question (Some []))) in
  exists w'',
    run (after 1 (says answer_4) (fails 402)) (client true)
        (structured AnswerNumber) 0 w'
    = (inr (ParsedData (JObject [("answer", JNumber 4%Q)])), w'') /\
    transport_calls (trace w'') = transport_calls (trace w') /\
    messages w'' = messages w' /\
    cache w'' = cache w'.
Proof.
  cbv zeta.
  eapply (cached_value_is_served_again stringify validate parse get set
           (after 1 (says answer_4) (fails 402)) (client true)
           (structured AnswerNumber) 3 0
           (start question (Some [])) []).
  - exact store_gives_back.
  - reflexivity.
  - reflexivity.
  - vm_compute. reflexivity.
  - reflexivity.
Defined.





(** X18 at work: two texts around an image. *)
Lemma nonempty_texts_join_by_newline_witness :
  format_content (ContentParts captioned) = spec_flatten captioned.
Proof.
  apply (nonempty_texts_join_by_newline captioned). reflexivity.
Defined.

(** X19 at work: a message of two images after the question. *)
Lemma images_only_message_sent_empty_witness :
  nth_error (body_messages
               (request_body (client false) plain (question ++ [picture_message]))) 1
  = Some {| param_role := user; param_content := "" |}.
Proof.
  apply (images_only_message_sent_empty (client false) plain
           (question ++ [picture_message]) 1 picture_message pictures);
    reflexivity.
Defined.
